(** * Response cache of DocsGPT: [application/cache.py]

    A shallow embedding of the cache-key derivation [gen_cache_key] and of the
    two caching decorators [gen_cache] and [stream_cache], together with the
    library routines they rely on ([json.dumps], [json.loads], the UTF-8 codec
    used by the Redis client), and the properties of the specification that
    concern them. *)

From Stdlib Require Import ZArith List String Ascii Lia Bool Permutation.
From Stdlib Require Import DecimalString Sorted DecimalZ DecimalPos.
From stdpp Require Import gmap list.

Local Open Scope Z_scope.
Set Warnings "-register-all".

(** ** Python text and bytes

    A Python [str] is a sequence of code points (surrogates included), a
    [bytes] object a sequence of octets.  Both are lists of integers; the
    range conditions are the predicates [wf_str] and [wf_bytes]. *)

Abbreviation pystr := (list Z) (only parsing).
Abbreviation bytes := (list Z) (only parsing).


(** A literal of the source, given as an ASCII string. *)
Definition lit (s : string) : pystr :=
  map (fun a => Z.of_N (N_of_ascii a)) (list_ascii_of_string s).
Arguments lit : simpl never.

Definition is_high_surrogate (c : Z) : bool := (0xd800 <=? c) && (c <=? 0xdbff).
Definition is_low_surrogate (c : Z) : bool := (0xdc00 <=? c) && (c <=? 0xdfff).
Definition is_surrogate (c : Z) : bool := (0xd800 <=? c) && (c <=? 0xdfff).

(** Lexicographic comparison of code-point sequences: Python's [<] on [str]. *)
Fixpoint pystr_compare (a b : pystr) : comparison :=
  match a, b with
  | [], [] => Eq
  | [], _ :: _ => Lt
  | _ :: _, [] => Gt
  | x :: a', y :: b' =>
      match x ?= y with
      | Eq => pystr_compare a' b'
      | c => c
      end
  end.

Definition pystr_leb (a b : pystr) : bool :=
  match pystr_compare a b with Gt => false | _ => true end.

(** ** Python values

    The values a conversation is made of: the JSON data model (without
    floating-point numbers).  A [dict] keeps its items in insertion order,
    which is the order its fields were written in; its keys are strings. *)

Inductive pyval : Type :=
| PyNone
| PyBool (b : bool)
| PyInt (n : Z)
| PyStr (s : pystr)
| PyList (l : list pyval)
| PyDict (d : list (pystr * pyval)).

(** [isinstance(msg, dict)] *)
Definition is_dict (v : pyval) : bool :=
  match v with PyDict _ => true | _ => false end.

(** Exceptions, by what an [except ValueError] clause can tell apart. *)
Inductive exn : Type :=
| ValueError (msg : pystr)
    (* ValueError and its subclasses (UnicodeError, json.JSONDecodeError) *)
| OtherException (name msg : pystr).
    (* an exception that is not an instance of ValueError *)

Inductive result (A : Type) : Type :=
| Ok (a : A)
| Raise (e : exn).
Arguments Ok {A} a.
Arguments Raise {A} e.

(** ** [json.dumps]

    [json.encoder.py_encode_basestring_ascii] (the default, [ensure_ascii]). *)

Definition hexdigit (d : Z) : Z := if d <? 10 then 48 + d else 87 + d.

(** ['{0:04x}'.format(n)] for [0 <= n < 0x10000] *)
Definition hex4 (n : Z) : pystr :=
  [hexdigit (n / 4096 mod 16); hexdigit (n / 256 mod 16);
   hexdigit (n / 16 mod 16); hexdigit (n mod 16)].

Definition u_escape (n : Z) : pystr := 92 :: 117 :: hex4 n.

Definition escape_char (c : Z) : pystr :=
  if c =? 92 then [92; 92]             (* backslash *)
  else if c =? 34 then [92; 34]        (* double quote *)
  else if c =? 8 then [92; 98]         (* \b *)
  else if c =? 12 then [92; 102]       (* \f *)
  else if c =? 10 then [92; 110]       (* \n *)
  else if c =? 13 then [92; 114]       (* \r *)
  else if c =? 9 then [92; 116]        (* \t *)
  else if (32 <=? c) && (c <=? 126) then [c]
  else if c <? 0x10000 then u_escape c
  else
    let n := c - 0x10000 in
    let s1 := Z.lor 0xd800 (Z.land (Z.shiftr n 10) 0x3ff) in
    let s2 := Z.lor 0xdc00 (Z.land n 0x3ff) in
    u_escape s1 ++ u_escape s2.

Definition encode_basestring_ascii (s : pystr) : pystr :=
  34 :: flat_map escape_char s ++ [34].

(** [int.__repr__], of an int within the limit on digits (see
    [json_dumps_failure]). *)
Fixpoint uint_digits (d : Decimal.uint) : pystr :=
  match d with
  | Decimal.Nil => []
  | Decimal.D0 d => 48 :: uint_digits d
  | Decimal.D1 d => 49 :: uint_digits d
  | Decimal.D2 d => 50 :: uint_digits d
  | Decimal.D3 d => 51 :: uint_digits d
  | Decimal.D4 d => 52 :: uint_digits d
  | Decimal.D5 d => 53 :: uint_digits d
  | Decimal.D6 d => 54 :: uint_digits d
  | Decimal.D7 d => 55 :: uint_digits d
  | Decimal.D8 d => 56 :: uint_digits d
  | Decimal.D9 d => 57 :: uint_digits d
  end.

Definition int_repr (n : Z) : pystr :=
  match Z.to_int n with
  | Decimal.Pos d => uint_digits d
  | Decimal.Neg d => 45 :: uint_digits d
  end.

(** [', '.join(parts)], the default item separator. *)
Fixpoint join_items (parts : list pystr) : pystr :=
  match parts with
  | [] => []
  | [p] => p
  | p :: ps => p ++ [44; 32] ++ join_items ps
  end.

(** [sorted(dct.items())]: the items in increasing order of their keys.  The
    keys of a dict are distinct, so the values are never compared and every
    stable sort gives this list. *)
Fixpoint insert_item {A} (x : pystr * A) (l : list (pystr * A)) : list (pystr * A) :=
  match l with
  | [] => [x]
  | y :: l' => if pystr_leb (fst x) (fst y) then x :: l else y :: insert_item x l'
  end.

Fixpoint sort_items {A} (l : list (pystr * A)) : list (pystr * A) :=
  match l with
  | [] => []
  | x :: l' => insert_item x (sort_items l')
  end.

(** [key: value] with the default key separator. *)
Definition render_item (kv : pystr * pystr) : pystr :=
  encode_basestring_ascii (fst kv) ++ [58; 32] ++ snd kv.

(** [json.dumps(v, sort_keys=sort_keys)].  A dict's values are rendered before
    the items are put in order; the order depends on the keys alone (see
    [json_dumps_dict_sorts_first]). *)
Fixpoint json_dumps (sort_keys : bool) (v : pyval) : pystr :=
  match v with
  | PyNone => lit "null"
  | PyBool true => lit "true"
  | PyBool false => lit "false"
  | PyInt n => int_repr n
  | PyStr s => encode_basestring_ascii s
  | PyList l => [91] ++ join_items (map (json_dumps sort_keys) l) ++ [93]
  | PyDict d =>
      let rendered := map (fun kv => (fst kv, json_dumps sort_keys (snd kv))) d in
      let items := if sort_keys then sort_items rendered else rendered in
      [123] ++ join_items (map render_item items) ++ [125]
  end.
Arguments json_dumps : simpl never.


(** ** [json.loads]

    The decoder on the documents [stream_cache] writes: an array of strings.
    On every other text the result is [None]: there Python raises
    [json.JSONDecodeError] or builds values that are no chunk list. *)

Definition hexval (c : Z) : option Z :=
  if (48 <=? c) && (c <=? 57) then Some (c - 48)
  else if (97 <=? c) && (c <=? 102) then Some (c - 87)
  else if (65 <=? c) && (c <=? 70) then Some (c - 55)
  else None.

(** [json.decoder._decode_uXXXX] on four hexadecimal digits. *)
Definition decode_uXXXX (a b c d : Z) : option Z :=
  match hexval a, hexval b, hexval c, hexval d with
  | Some x, Some y, Some z, Some t => Some (x * 4096 + y * 256 + z * 16 + t)
  | _, _, _, _ => None
  end.

(** [json.decoder.BACKSLASH] *)
Definition backslash (esc : Z) : option Z :=
  if esc =? 34 then Some 34
  else if esc =? 92 then Some 92
  else if esc =? 47 then Some 47
  else if esc =? 98 then Some 8
  else if esc =? 102 then Some 12
  else if esc =? 110 then Some 10
  else if esc =? 114 then Some 13
  else if esc =? 116 then Some 9
  else None.

Definition push (c : Z) (r : option (pystr * pystr)) : option (pystr * pystr) :=
  match r with
  | Some (s, rest) => Some (c :: s, rest)
  | None => None
  end.

(** [json.decoder.py_scanstring] (strict), from the character after the
    opening quote: the decoded string and the text after the closing quote.
    A high surrogate escape directly followed by a low surrogate escape is
    joined into one code point. *)
Fixpoint scanstring (s : pystr) : option (pystr * pystr) :=
  match s with
  | [] => None
  | c :: s1 =>
      if c =? 34 then Some ([], s1)
      else if c =? 92 then
        match s1 with
        | [] => None
        | esc :: s2 =>
            if esc =? 117 then
              match s2 with
              | h1 :: h2 :: h3 :: h4 :: s6 =>
                  match decode_uXXXX h1 h2 h3 h4 with
                  | None => None
                  | Some uni =>
                      match s6 with
                      | b :: u :: s8 =>
                          if is_high_surrogate uni && (b =? 92) && (u =? 117) then
                            match s8 with
                            | l1 :: l2 :: l3 :: l4 :: s12 =>
                                match decode_uXXXX l1 l2 l3 l4 with
                                | None => None
                                | Some uni2 =>
                                    if is_low_surrogate uni2 then
                                      push (0x10000 +
                                            Z.lor (Z.shiftl (uni - 0xd800) 10)
                                                  (uni2 - 0xdc00))
                                           (scanstring s12)
                                    else push uni (scanstring s6)
                                end
                            | _ => None
                            end
                          else push uni (scanstring s6)
                      | _ => push uni (scanstring s6)
                      end
                  end
              | _ => None
              end
            else
              match backslash esc with
              | Some ch => push ch (scanstring s2)
              | None => None
              end
        end
      else if c <? 32 then None
      else push c (scanstring s1)
  end.

(** [json.decoder.WHITESPACE] *)
Definition is_ws (c : Z) : bool :=
  (c =? 32) || (c =? 9) || (c =? 10) || (c =? 13).

Fixpoint skip_ws (s : pystr) : pystr :=
  match s with
  | c :: s' => if is_ws c then skip_ws s' else s
  | [] => []
  end.

(** The loop of [json.decoder.JSONArray] over string items, entered at the
    first character of an item.  Every round consumes input, so the length of
    the text is fuel enough (see [json_loads_chunks]). *)
Fixpoint array_items (fuel : nat) (s : pystr) : option (list pystr * pystr) :=
  match fuel with
  | O => None
  | S fuel' =>
      match s with
      | q :: s1 =>
          if q =? 34 then
            match scanstring s1 with
            | None => None
            | Some (item, rest) =>
                match skip_ws rest with
                | c :: rest' =>
                    if c =? 93 then Some ([item], rest')
                    else if c =? 44 then
                      match array_items fuel' (skip_ws rest') with
                      | Some (items, rest'') => Some (item :: items, rest'')
                      | None => None
                      end
                    else None
                | [] => None
                end
            end
          else None
      | [] => None
      end
  end.

(** [json.loads(text)] when [text] is an array of strings. *)
Definition json_loads_chunks (text : pystr) : option (list pystr) :=
  match skip_ws text with
  | c :: s1 =>
      if c =? 91 then
        let parsed :=
          match skip_ws s1 with
          | c' :: s2 =>
              if c' =? 93 then Some ([], s2)
              else array_items (length text) (skip_ws s1)
          | [] => None
          end in
        match parsed with
        | Some (items, rest) =>
            match skip_ws rest with
            | [] => Some items
            | _ :: _ => None
            end
        | None => None
        end
      else None
  | [] => None
  end.

(** ** The UTF-8 codec

    [str.encode('utf-8')], which the Redis client applies to a text value, and
    [bytes.decode('utf-8')]; both strict.  [None] is [UnicodeEncodeError],
    respectively [UnicodeDecodeError]. *)

Definition utf8_encode_cp (c : Z) : option bytes :=
  if c <? 0x80 then Some [c]
  else if c <? 0x800 then Some [0xc0 + c / 64; 0x80 + c mod 64]
  else if c <? 0x10000 then
    if is_surrogate c then None
    else Some [0xe0 + c / 4096; 0x80 + c / 64 mod 64; 0x80 + c mod 64]
  else
    Some [0xf0 + c / 262144; 0x80 + c / 4096 mod 64;
          0x80 + c / 64 mod 64; 0x80 + c mod 64].

Fixpoint str_encode (s : pystr) : option bytes :=
  match s with
  | [] => Some []
  | c :: s' =>
      match utf8_encode_cp c, str_encode s' with
      | Some b, Some bs => Some (b ++ bs)
      | _, _ => None
      end
  end.

Definition is_cont (b : Z) : bool := (0x80 <=? b) && (b <? 0xc0).

Definition push_cp (c : Z) (r : option pystr) : option pystr :=
  match r with
  | Some s => Some (c :: s)
  | None => None
  end.

Fixpoint bytes_decode (b : bytes) : option pystr :=
  match b with
  | [] => Some []
  | b0 :: r0 =>
      if b0 <? 0x80 then push_cp b0 (bytes_decode r0)
      else if b0 <? 0xc2 then None
      else if b0 <? 0xe0 then
        match r0 with
        | b1 :: r1 =>
            if is_cont b1
            then push_cp ((b0 - 0xc0) * 64 + (b1 - 0x80)) (bytes_decode r1)
            else None
        | _ => None
        end
      else if b0 <? 0xf0 then
        match r0 with
        | b1 :: b2 :: r2 =>
            let c := (b0 - 0xe0) * 4096 + (b1 - 0x80) * 64 + (b2 - 0x80) in
            if is_cont b1 && is_cont b2 && (0x800 <=? c) && negb (is_surrogate c)
            then push_cp c (bytes_decode r2)
            else None
        | _ => None
        end
      else if b0 <? 0xf5 then
        match r0 with
        | b1 :: b2 :: b3 :: r3 =>
            let c := (b0 - 0xf0) * 262144 + (b1 - 0x80) * 4096
                     + (b2 - 0x80) * 64 + (b3 - 0x80) in
            if is_cont b1 && is_cont b2 && is_cont b3
               && (0x10000 <=? c) && (c <? 0x110000)
            then push_cp c (bytes_decode r3)
            else None
        | _ => None
        end
      else None
  end.

(** ** Effects

    The wrappers read and write the Redis database, call the wrapped
    function, print, sleep and, in the streaming case, yield chunks.  A
    computation threads a state and ends in a value, in an exception, or
    outside what is modelled here ([Unmodelled]: the stored payload is read by
    [stream_cache] and is no array of strings).

    The database is a finite map from keys to payloads.  Entries stay until
    they are overwritten: the expiry of an entry is recorded with the write,
    time does not pass.  The client of [make_redis] always answers;
    connection errors are not part of the model. *)

Record world : Type := World {
  store : gmap pystr bytes;            (* the Redis database *)
  writes : list (pystr * bytes * Z);   (* SET commands: key, payload, expiry (s) *)
  gen_calls : nat;                     (* calls of the wrapped function *)
  stdout : list pystr;                 (* lines printed *)
  sleeps : nat                         (* calls of time.sleep(0.07) *)
}.

Inductive outcome (A : Type) : Type :=
| Done (r : result A)
| Unmodelled.
Arguments Done {A} r.
Arguments Unmodelled {A}.

Definition M (S A : Type) : Type := S -> outcome A * S.

Definition ret {S A} (a : A) : M S A := fun s => (Done (Ok a), s).

Definition raise {S A} (e : exn) : M S A := fun s => (Done (Raise e), s).

Definition bind {S A B} (m : M S A) (k : A -> M S B) : M S B :=
  fun s =>
    match m s with
    | (Done (Ok a), s') => k a s'
    | (Done (Raise e), s') => (Done (Raise e), s')
    | (Unmodelled, s') => (Unmodelled, s')
    end.

Notation "'let*' x ':=' m 'in' k" := (bind m (fun x => k))
  (at level 10, x name, m at level 100, k at level 200, only parsing).
Notation "m '>>' k" := (bind m (fun _ => k))
  (at level 100, k at level 200, right associativity, only parsing).

(** [try: body / except ValueError as e: handler] *)
Definition try_except_ValueError {S A}
    (body : M S A) (handler : pystr -> M S A) : M S A :=
  fun s =>
    match body s with
    | (Done (Raise (ValueError msg)), s') => handler msg s'
    | r => r
    end.

Definition lift_result {S A} (r : result A) : M S A := fun s => (Done r, s).

(** The state changes of the primitive actions. *)
Definition record_write (key : pystr) (payload : bytes) (ex : Z) (w : world) : world :=
  {| store := <[key := payload]> (store w);
     writes := writes w ++ [(key, payload, ex)];
     gen_calls := gen_calls w;
     stdout := stdout w;
     sleeps := sleeps w |}.

Definition record_call (w : world) : world :=
  {| store := store w; writes := writes w; gen_calls := S (gen_calls w);
     stdout := stdout w; sleeps := sleeps w |}.

Definition record_line (line : pystr) (w : world) : world :=
  {| store := store w; writes := writes w; gen_calls := gen_calls w;
     stdout := stdout w ++ [line]; sleeps := sleeps w |}.

Definition record_sleep (w : world) : world :=
  {| store := store w; writes := writes w; gen_calls := gen_calls w;
     stdout := stdout w; sleeps := S (sleeps w) |}.

Fixpoint record_sleeps (n : nat) (w : world) : world :=
  match n with
  | O => w
  | S n' => record_sleeps n' (record_sleep w)
  end.

(** [redis_client.get(key)] *)
Definition redis_get (key : pystr) : M world (option bytes) :=
  fun w => (Done (Ok (store w !! key)), w).

(** [redis_client.set(key, value, ex=ex)] with a text value: the client
    encodes it as UTF-8, and [UnicodeEncodeError] is a [ValueError].  Its
    message is abbreviated to the name of the error. *)
Definition redis_set (key value : pystr) (ex : Z) : M world unit :=
  fun w =>
    match str_encode value with
    | None => (Done (Raise (ValueError (lit "UnicodeEncodeError"))), w)
    | Some payload => (Done (Ok tt), record_write key payload ex w)
    end.

(** [cached_response.decode('utf-8')]; [UnicodeDecodeError] is a
    [ValueError].  Its message is abbreviated to the name of the error. *)
Definition decode_utf8 {S} (payload : bytes) : M S pystr :=
  match bytes_decode payload with
  | Some text => ret text
  | None => raise (ValueError (lit "UnicodeDecodeError"))
  end.

(** [print(line)], to a standard output that takes every text. *)
Definition print (line : pystr) : M world unit :=
  fun w => (Done (Ok tt), record_line line w).

(** [time.sleep(0.07)] *)
Definition sleep : M world unit :=
  fun w => (Done (Ok tt), record_sleep w).

(** A call of the wrapped function is counted. *)
Definition called : M world unit :=
  fun w => (Done (Ok tt), record_call w).

(** The hit test of both wrappers, [if cached_response:], on the entry of a
    key: an absent entry and an empty payload are both falsy. *)
Definition cache_hit (w : world) (key : pystr) : bool :=
  match store w !! key with
  | Some (_ :: _) => true
  | _ => false
  end.

(** The wrapped operations, as functions of the model and the messages (and
    the stream flag).  The unary one returns a text or raises; the streaming
    one produces chunks of text and then ends ([failure] is [None]: its
    iterator is exhausted) or raises, in the call or while it is iterated. *)
Definition unary_func : Type := pystr -> list pyval -> result pystr.

Record stream : Type := Stream {
  chunks : list pystr;
  failure : option exn
}.

Definition stream_func : Type := pystr -> list pyval -> bool -> stream.

(** A generator body runs on the chunks yielded so far and the world; its
    consumer takes every chunk. *)
Definition in_world {A} (m : M world A) : M (list pystr * world) A :=
  fun s =>
    match m (snd s) with
    | (r, w') => (r, (fst s, w'))
    end.

Definition yield (chunk : pystr) : M (list pystr * world) unit :=
  fun s => (Done (Ok tt), (fst s ++ [chunk], snd s)).

(** [json.loads(text)] in the hit path of [stream_cache]; see
    [json_loads_chunks]. *)
Definition json_loads {S} (text : pystr) : M S (list pystr) :=
  fun s =>
    match json_loads_chunks text with
    | Some items => (Done (Ok items), s)
    | None => (Unmodelled, s)
    end.

(** Equality of texts. *)
Definition pystr_eqb (a b : pystr) : bool :=
  match pystr_compare a b with Eq => true | _ => false end.

(** PEP 479: a [StopIteration] that leaves the body of a generator reaches the
    caller of the generator as [RuntimeError]; every other exception passes
    as it is. *)
Definition generator_exception (e : exn) : exn :=
  match e with
  | OtherException name msg =>
      if pystr_eqb name (lit "StopIteration")
      then OtherException (lit "RuntimeError") (lit "generator raised StopIteration")
      else e
  | ValueError _ => e
  end.

(** The text both handlers answer with. *)
Definition sentinel : pystr :=
  lit "Error: No user message found in the conversation to generate a cache key.".

Section Cache.

(** [application.utils.get_hash] is not part of this file. *)
Variable get_hash : pystr -> pystr.

(** *** [gen_cache_key]

    The key of a conversation that [json.dumps] serializes;
    [gen_cache_key_full] below adds the conversations on which it raises. *)
Definition gen_cache_key (messages : list pyval) (model : pystr) : result pystr :=
  if negb (forallb is_dict messages) then
    Raise (ValueError (lit "All messages must be dictionaries."))
  else
    let messages_str := json_dumps true (PyList messages) in
    let combined := model ++ [95] ++ messages_str in
    let cache_key := get_hash combined in
    Ok cache_key.

(** The default of the keyword argument [model]. *)
Definition default_model : pystr := lit "docgpt".

(** *** [gen_cache] *)
Definition gen_cache (func : unary_func)
    (model : pystr) (messages : list pyval) : M world pystr :=
  try_except_ValueError
    (let* cache_key := lift_result (gen_cache_key messages default_model) in
     let* cached_response := redis_get cache_key in
     match cached_response with
     | Some ((_ :: _) as payload) => decode_utf8 payload
     | _ =>
         called >>
         let* result := lift_result (func model messages) in
         redis_set cache_key result 3600 >>
         ret result
     end)
    (fun e => print e >> ret sentinel).

(** *** [stream_cache] *)

(** [for chunk in result: stream_cache_data.append(chunk); yield chunk] *)
Fixpoint drain (cs : list pystr) (stream_cache_data : list pystr)
    : M (list pystr * world) (list pystr) :=
  match cs with
  | [] => ret stream_cache_data
  | chunk :: cs' =>
      let stream_cache_data := stream_cache_data ++ [chunk] in
      yield chunk >>
      drain cs' stream_cache_data
  end.

Definition consume (result : stream) : M (list pystr * world) (list pystr) :=
  let* stream_cache_data := drain (chunks result) [] in
  match failure result with
  | Some e => raise e
  | None => ret stream_cache_data
  end.

(** [for chunk in cached_response: yield chunk; time.sleep(0.07)] *)
Fixpoint replay (cached_response : list pystr) : M (list pystr * world) unit :=
  match cached_response with
  | [] => ret tt
  | chunk :: rest => yield chunk >> in_world sleep >> replay rest
  end.

Definition stream_cache (func : stream_func)
    (model : pystr) (messages : list pyval) (stream_flag : bool)
    : M (list pystr * world) unit :=
  let* cache_key := lift_result (gen_cache_key messages default_model) in
  try_except_ValueError
    (let* cached_response := in_world (redis_get cache_key) in
     match cached_response with
     | Some ((_ :: _) as payload) =>
         in_world (print (lit "Cache hit for stream key: " ++ cache_key)) >>
         let* text := decode_utf8 payload in
         let* cached_response := json_loads text in
         replay cached_response
     | _ =>
         in_world called >>
         let* stream_cache_data := consume (func model messages stream_flag) in
         in_world (redis_set cache_key
                     (json_dumps false (PyList (map PyStr stream_cache_data)))
                     1800) >>
         in_world (print (lit "Stream cache saved for key: " ++ cache_key))
     end)
    (fun e => in_world (print e) >> yield sentinel).

(** A run of the generator from a world, drained by its consumer: the chunks
    it yields, how it ends, and the world it leaves.  An exception that leaves
    the body passes the boundary of the generator ([generator_exception]). *)
Definition run_stream_cache (func : stream_func)
    (model : pystr) (messages : list pyval) (stream_flag : bool) (w : world)
    : list pystr * outcome unit * world :=
  match stream_cache func model messages stream_flag ([], w) with
  | (Done (Raise e), (out, w')) => (out, Done (Raise (generator_exception e)), w')
  | (r, (out, w')) => (out, r, w')
  end.

End Cache.

(** ** When [json.dumps] raises

    [json_dumps] is the text [json.dumps] returns.  On values of the JSON data
    model it raises instead in two cases.  An int of more than 4300 decimal
    digits is not converted to text: [ValueError], with the default limit of
    [sys.set_int_max_str_digits].  Containers nested deeper than the
    interpreter allows at the call end the encoder with [RecursionError]; the
    encoder enters one level for every list and dict, and [depth] is the
    number of levels it may enter.  The encoder meets the values in the order
    in which it writes them, so with [sort_keys] the first failure in key
    order is the one that is raised. *)

Definition int_max_str_digits : Z := 4300.

Definition int_too_long (n : Z) : bool := 10 ^ int_max_str_digits <=? Z.abs n.

Definition int_limit_error : exn :=
  ValueError (lit "Exceeds the limit (4300 digits) for integer string conversion; use sys.set_int_max_str_digits() to increase the limit").

Definition recursion_error : exn :=
  OtherException (lit "RecursionError")
    (lit "maximum recursion depth exceeded while encoding a JSON object").

Fixpoint first_failure (l : list (option exn)) : option exn :=
  match l with
  | [] => None
  | Some e :: _ => Some e
  | None :: l' => first_failure l'
  end.

Fixpoint json_dumps_failure (sort_keys : bool) (depth : nat) (v : pyval) {struct v}
    : option exn :=
  match v with
  | PyNone | PyBool _ | PyStr _ => None
  | PyInt n => if int_too_long n then Some int_limit_error else None
  | PyList l =>
      match depth with
      | O => Some recursion_error
      | S depth' => first_failure (map (json_dumps_failure sort_keys depth') l)
      end
  | PyDict d =>
      match depth with
      | O => Some recursion_error
      | S depth' =>
          let checked :=
            map (fun kv => (fst kv, json_dumps_failure sort_keys depth' (snd kv))) d in
          first_failure (map snd (if sort_keys then sort_items checked else checked))
      end
  end.

(** The levels of containers in a value, and whether all its ints are within
    the limit. *)
Fixpoint nesting (v : pyval) : nat :=
  match v with
  | PyList l => S (fold_right (fun x acc => Nat.max (nesting x) acc) O l)
  | PyDict d => S (fold_right (fun kv acc => Nat.max (nesting (snd kv)) acc) O d)
  | _ => O
  end.

Fixpoint ints_short (v : pyval) : bool :=
  match v with
  | PyInt n => negb (int_too_long n)
  | PyList l => forallb ints_short l
  | PyDict d => forallb (fun kv => ints_short (snd kv)) d
  | _ => true
  end.

(** [gen_cache_key] with the failures of [json.dumps], which the function
    does not catch.  [gen_cache_key] above is this function on the
    conversations that [json.dumps] serializes
    ([gen_cache_key_full_serializable]). *)
Definition gen_cache_key_full (get_hash : pystr -> pystr) (depth : nat)
    (messages : list pyval) (model : pystr) : result pystr :=
  if negb (forallb is_dict messages) then
    Raise (ValueError (lit "All messages must be dictionaries."))
  else
    match json_dumps_failure true depth (PyList messages) with
    | Some e => Raise e
    | None =>
        let messages_str := json_dumps true (PyList messages) in
        let combined := model ++ [95] ++ messages_str in
        let cache_key := get_hash combined in
        Ok cache_key
    end.

(** Lists in lists, [n] levels below the outermost. *)
Fixpoint nested_lists (n : nat) : pyval :=
  match n with
  | O => PyList []
  | S n' => PyList [nested_lists n']
  end.

(** ** Sample data

    A conversation of one user message, a world with an empty database, and
    the identity in the place of the hash function. *)

Definition hi_messages : list pyval :=
  [PyDict [(lit "role", PyStr (lit "user")); (lit "content", PyStr (lit "hi"))]].

Definition empty_world : world :=
  {| store := ∅; writes := []; gen_calls := O; stdout := []; sleeps := O |}.

Definition identity_hash (data : pystr) : pystr := data.

(** The key both wrappers derive for a conversation of dicts. *)
Definition wrapper_key (get_hash : pystr -> pystr) (messages : list pyval) : pystr :=
  get_hash (default_model ++ [95] ++ json_dumps true (PyList messages)).



(** ** Records that differ in the order of their fields

    [same_fields v1 v2]: [v2] is [v1] with the items of its dicts, at any
    depth, written in another order.  [distinct_keys v]: no dict in [v] has a
    key twice, as in every Python dict. *)

Inductive same_fields : pyval -> pyval -> Prop :=
| same_none : same_fields PyNone PyNone
| same_bool b : same_fields (PyBool b) (PyBool b)
| same_int n : same_fields (PyInt n) (PyInt n)
| same_str s : same_fields (PyStr s) (PyStr s)
| same_list l1 l2 :
    Forall2 same_fields l1 l2 ->
    same_fields (PyList l1) (PyList l2)
| same_dict d1 d2 d2' :
    Forall2 (fun a b => fst a = fst b /\ same_fields (snd a) (snd b)) d1 d2' ->
    Permutation d2' d2 ->
    same_fields (PyDict d1) (PyDict d2).

Inductive distinct_keys : pyval -> Prop :=
| distinct_none : distinct_keys PyNone
| distinct_bool b : distinct_keys (PyBool b)
| distinct_int n : distinct_keys (PyInt n)
| distinct_str s : distinct_keys (PyStr s)
| distinct_list l :
    Forall distinct_keys l ->
    distinct_keys (PyList l)
| distinct_dict d :
    NoDup (map fst d) ->
    Forall (fun kv => distinct_keys (snd kv)) d ->
    distinct_keys (PyDict d).

(** The sample conversation with the fields of its message written in the
    other order. *)
Definition hi_messages_swapped : list pyval :=
  [PyDict [(lit "content", PyStr (lit "hi")); (lit "role", PyStr (lit "user"))]].

(** ** Chunks that survive the JSON round trip

    [no_surrogate_pair s]: in [s] no high surrogate code point is directly
    followed by a low surrogate code point.  Text decoded from UTF-8 has no
    surrogate code points at all. *)




(** The document [stream_cache] stores for a chunk list. *)
Definition chunks_document (cs : list pystr) : pystr :=
  json_dumps false (PyList (map PyStr cs)).

(** The order [sort_items] puts the items in. *)
Definition key_le {A} (x y : pystr * A) : Prop := pystr_leb (fst x) (fst y) = true.

(** ** Auxiliary notions for the JSON round trip *)



(** ** Notions for telling conversations apart by their keys *)






(** The surrogate pair [json.dumps] writes for a code point above U+FFFF. *)
Definition high_surrogate_of (c : Z) : Z :=
  Z.lor 0xd800 (Z.land (Z.shiftr (c - 0x10000) 10) 0x3ff).

Definition low_surrogate_of (c : Z) : Z :=
  Z.lor 0xdc00 (Z.land (c - 0x10000) 0x3ff).


(** * Properties *)

(** ** Running the wrappers *)

Section WrapperRuns.

Variable get_hash : pystr -> pystr.

Lemma gen_cache_key_dicts (messages : list pyval) (model : pystr) :
  forallb is_dict messages = true ->
  gen_cache_key get_hash messages model
  = Ok (get_hash (model ++ [95] ++ json_dumps true (PyList messages))).
Proof.
  intros Hd. unfold gen_cache_key. now rewrite Hd.
Qed.

Lemma gen_cache_key_not_dicts (messages : list pyval) (model : pystr) :
  forallb is_dict messages = false ->
  gen_cache_key get_hash messages model
  = Raise (ValueError (lit "All messages must be dictionaries.")).
Proof.
  intros Hd. unfold gen_cache_key. now rewrite Hd.
Qed.

(** The unary wrapper on a conversation with an element that is no dict. *)
Lemma gen_cache_invalid (func : unary_func) (model : pystr)
    (messages : list pyval) (w : world) :
  forallb is_dict messages = false ->
  gen_cache get_hash func model messages w
  = (Done (Ok sentinel),
     record_line (lit "All messages must be dictionaries.") w).
Proof.
  intros Hd. unfold gen_cache, try_except_ValueError, bind, lift_result.
  now rewrite (gen_cache_key_not_dicts _ _ Hd).
Qed.

(** The unary wrapper on a hit. *)
Lemma gen_cache_on_hit (func : unary_func) (model : pystr)
    (messages : list pyval) (w : world) (key : pystr) (b : Z) (bs : bytes) :
  gen_cache_key get_hash messages default_model = Ok key ->
  store w !! key = Some (b :: bs) ->
  gen_cache get_hash func model messages w
  = match bytes_decode (b :: bs) with
    | Some text => (Done (Ok text), w)
    | None => (Done (Ok sentinel), record_line (lit "UnicodeDecodeError") w)
    end.
Proof.
  intros Hk Hs.
  unfold gen_cache, try_except_ValueError, bind, lift_result, redis_get.
  rewrite Hk, Hs. unfold decode_utf8.
  now destruct (bytes_decode (b :: bs)).
Qed.

(** The unary wrapper on a miss. *)
Lemma gen_cache_on_miss (func : unary_func) (model : pystr)
    (messages : list pyval) (w : world) (key : pystr) :
  gen_cache_key get_hash messages default_model = Ok key ->
  cache_hit w key = false ->
  gen_cache get_hash func model messages w
  = match func model messages with
    | Ok result =>
        match str_encode result with
        | Some payload =>
            (Done (Ok result), record_write key payload 3600 (record_call w))
        | None =>
            (Done (Ok sentinel),
             record_line (lit "UnicodeEncodeError") (record_call w))
        end
    | Raise (ValueError msg) =>
        (Done (Ok sentinel), record_line msg (record_call w))
    | Raise e => (Done (Raise e), record_call w)
    end.
Proof.
  intros Hk Hm.
  unfold gen_cache, try_except_ValueError, bind, lift_result, redis_get.
  rewrite Hk. unfold cache_hit in Hm.
  destruct (store w !! key) as [[|b bs]|]; try discriminate;
    unfold called, redis_set, ret, print;
    (destruct (func model messages) as [result|[msg|name msg]]; [|reflexivity..];
     now destruct (str_encode result)).
Qed.

Lemma drain_run (cs buf out : list pystr) (w : world) :
  drain cs buf (out, w) = (Done (Ok (buf ++ cs)), (out ++ cs, w)).
Proof.
  revert buf out. induction cs as [|c cs IH]; intros buf out; simpl.
  - unfold ret. now rewrite !app_nil_r.
  - unfold bind, yield. simpl. rewrite IH.
    now rewrite <- !app_assoc.
Qed.

Lemma replay_run (cs out : list pystr) (w : world) :
  replay cs (out, w)
  = (Done (Ok tt), (out ++ cs, record_sleeps (length cs) w)).
Proof.
  revert out w. induction cs as [|c cs IH]; intros out w; simpl.
  - unfold ret. now rewrite app_nil_r.
  - unfold bind, yield, in_world, sleep. simpl. rewrite IH.
    now rewrite <- app_assoc.
Qed.

(** The streaming wrapper on a conversation with an element that is no dict:
    the key derivation is outside the [try] block. *)
Lemma stream_cache_invalid (func : stream_func) (model : pystr)
    (messages : list pyval) (flag : bool) (w : world) :
  forallb is_dict messages = false ->
  run_stream_cache get_hash func model messages flag w
  = ([], Done (Raise (ValueError (lit "All messages must be dictionaries."))), w).
Proof.
  intros Hd. unfold run_stream_cache, stream_cache, bind, lift_result.
  now rewrite (gen_cache_key_not_dicts _ _ Hd).
Qed.

(** The streaming wrapper on a miss. *)
Lemma stream_cache_on_miss (func : stream_func) (model : pystr)
    (messages : list pyval) (flag : bool) (w : world) (key : pystr) :
  gen_cache_key get_hash messages default_model = Ok key ->
  cache_hit w key = false ->
  run_stream_cache get_hash func model messages flag w
  = let result := func model messages flag in
    match failure result with
    | None =>
        match str_encode (json_dumps false (PyList (map PyStr (chunks result)))) with
        | Some payload =>
            (chunks result, Done (Ok tt),
             record_line (lit "Stream cache saved for key: " ++ key)
               (record_write key payload 1800 (record_call w)))
        | None =>
            (chunks result ++ [sentinel], Done (Ok tt),
             record_line (lit "UnicodeEncodeError") (record_call w))
        end
    | Some (ValueError msg) =>
        (chunks result ++ [sentinel], Done (Ok tt),
         record_line msg (record_call w))
    | Some e =>
        (chunks result, Done (Raise (generator_exception e)), record_call w)
    end.
Proof.
  intros Hk Hm.
  unfold run_stream_cache, stream_cache, try_except_ValueError, bind at 1,
    lift_result.
  rewrite Hk. unfold bind at 1, in_world at 1, redis_get. cbn [fst snd].
  assert (Hmiss : forall A (x : bytes -> A) (y : A),
            match store w !! key with
            | Some ((_ :: _) as payload) => x payload
            | _ => y
            end = y).
  { intros A x y. unfold cache_hit in Hm.
    now destruct (store w !! key) as [[|? ?]|]. }
  rewrite Hmiss.
  unfold bind at 1, in_world at 1, called. cbn [fst snd].
  unfold bind at 1, consume, bind at 1. rewrite drain_run.
  cbn [app].
  destruct (failure (func model messages flag)) as [[msg|name msg]|];
    unfold raise, ret; cbn [fst snd].
  - unfold bind, in_world, print, yield. reflexivity.
  - reflexivity.
  - unfold bind, in_world, redis_set, print, yield. cbn [fst snd].
    destruct (str_encode _); reflexivity.
Qed.

(** The streaming wrapper on a hit. *)
Lemma stream_cache_on_hit (func : stream_func) (model : pystr)
    (messages : list pyval) (flag : bool) (w : world) (key : pystr)
    (b : Z) (bs : bytes) :
  gen_cache_key get_hash messages default_model = Ok key ->
  store w !! key = Some (b :: bs) ->
  run_stream_cache get_hash func model messages flag w
  = let w1 := record_line (lit "Cache hit for stream key: " ++ key) w in
    match bytes_decode (b :: bs) with
    | Some text =>
        match json_loads_chunks text with
        | Some cached => (cached, Done (Ok tt), record_sleeps (length cached) w1)
        | None => ([], Unmodelled, w1)
        end
    | None =>
        ([sentinel], Done (Ok tt), record_line (lit "UnicodeDecodeError") w1)
    end.
Proof.
  intros Hk Hs.
  unfold run_stream_cache, stream_cache, try_except_ValueError, bind at 1,
    lift_result.
  rewrite Hk. unfold bind at 1, in_world at 1, redis_get. cbn [fst snd].
  rewrite Hs. unfold bind at 1, in_world at 1, print. cbn [fst snd].
  unfold bind at 1, decode_utf8.
  destruct (bytes_decode (b :: bs)) as [text|]; unfold ret, raise.
  - unfold bind, json_loads.
    destruct (json_loads_chunks text) as [cached|]; [|reflexivity].
    now rewrite replay_run.
  - unfold bind, in_world, print, yield. reflexivity.
Qed.

End WrapperRuns.

(** ** The unary wrapper *)

Section UnaryWrapper.

Variable get_hash : pystr -> pystr.

Lemma wrapper_key_derived (messages : list pyval) :
  forallb is_dict messages = true ->
  gen_cache_key get_hash messages default_model = Ok (wrapper_key get_hash messages).
Proof. apply gen_cache_key_dicts. Qed.

Lemma forallb_is_dict_false (messages : list pyval) :
  (exists m, In m messages /\ is_dict m = false) ->
  forallb is_dict messages = false.
Proof.
  intros (m & Hin & Hm). apply not_true_is_false. intros Hall.
  rewrite forallb_forall in Hall. specialize (Hall m Hin). congruence.
Qed.

Lemma store_record_write (key : pystr) (payload : bytes) (ex : Z) (w : world) :
  store (record_write key payload ex w) !! key = Some payload.
Proof. unfold record_write. cbn [store]. apply lookup_insert_eq. Qed.

(** C1: the unary wrapper derives its key from the messages alone.  The model
    name only reaches the wrapped function; after a call for model [a] has
    filled the cache, a call for model [b] with the same messages is served
    the entry of model [a]. *)
Theorem gen_cache_key_ignores_model :
  (forall (func : unary_func) (model : pystr) (messages : list pyval) (w : world),
     gen_cache get_hash func model messages w
     = gen_cache get_hash (fun _ => func model) default_model messages w)
  /\ gen_cache get_hash (fun _ _ => Ok (lit "A")) (lit "a") hi_messages empty_world
     = (Done (Ok (lit "A")),
        record_write (wrapper_key get_hash hi_messages) (lit "A") 3600
          (record_call empty_world))
  /\ gen_cache get_hash (fun _ _ => Ok (lit "B")) (lit "b") hi_messages
       (record_write (wrapper_key get_hash hi_messages) (lit "A") 3600
          (record_call empty_world))
     = (Done (Ok (lit "A")),
        record_write (wrapper_key get_hash hi_messages) (lit "A") 3600
          (record_call empty_world)).
Proof.
  split; [reflexivity|]. split.
  - rewrite (gen_cache_on_miss get_hash _ _ _ _ (wrapper_key get_hash hi_messages));
      [reflexivity | now apply wrapper_key_derived | reflexivity].
  - erewrite gen_cache_on_hit;
      [ | now apply wrapper_key_derived | apply store_record_write ].
    reflexivity.
Qed.

(** C4: on a conversation that contains an element that is no dict, the unary
    wrapper does not raise: it returns the sentinel text, and it neither
    writes to the store nor calls the wrapped function. *)
Theorem gen_cache_invalid_input (func : unary_func) (model : pystr)
    (messages : list pyval) (w : world) :
  (exists m, In m messages /\ is_dict m = false) ->
  exists w',
    gen_cache get_hash func model messages w = (Done (Ok sentinel), w')
    /\ sentinel
       = lit "Error: No user message found in the conversation to generate a cache key."
    /\ store w' = store w
    /\ writes w' = writes w
    /\ gen_calls w' = gen_calls w.
Proof.
  intros Hbad. apply forallb_is_dict_false in Hbad.
  eexists. split; [now apply gen_cache_invalid|].
  repeat split.
Qed.

(** C5: for model [m] and the conversation of one user message [hi], a first
    call whose generation returns [hello] writes [hello] under the derived key
    (with the expiry of one hour) and returns [hello]; a second call with the
    same arguments returns [hello] and leaves the world as it is: no call of
    the wrapped function, no write. *)
Theorem gen_cache_round_trip (func1 func2 : unary_func) (w : world) :
  cache_hit w (wrapper_key get_hash hi_messages) = false ->
  func1 (lit "m") hi_messages = Ok (lit "hello") ->
  let w1 := record_write (wrapper_key get_hash hi_messages) (lit "hello") 3600
              (record_call w) in
  gen_cache get_hash func1 (lit "m") hi_messages w = (Done (Ok (lit "hello")), w1)
  /\ store w1 !! wrapper_key get_hash hi_messages = Some (lit "hello")
  /\ writes w1 = writes w ++ [(wrapper_key get_hash hi_messages, lit "hello", 3600)]
  /\ gen_calls w1 = S (gen_calls w)
  /\ gen_cache get_hash func2 (lit "m") hi_messages w1 = (Done (Ok (lit "hello")), w1).
Proof.
  intros Hmiss Hgen w1. repeat split.
  - rewrite (gen_cache_on_miss get_hash _ _ _ _ (wrapper_key get_hash hi_messages));
      [ | now apply wrapper_key_derived | assumption ].
    now rewrite Hgen.
  - apply store_record_write.
  - erewrite gen_cache_on_hit;
      [ | now apply wrapper_key_derived | apply store_record_write ].
    reflexivity.
Qed.

End UnaryWrapper.

Lemma gen_cache_invalid_input_witness :
  (exists m, In m [PyStr (lit "hi")] /\ is_dict m = false)
  /\ exists w',
       gen_cache identity_hash (fun _ _ => Ok (lit "hello")) (lit "m")
         [PyStr (lit "hi")] empty_world
       = (Done (Ok sentinel), w')
       /\ sentinel
          = lit "Error: No user message found in the conversation to generate a cache key."
       /\ store w' = store empty_world
       /\ writes w' = writes empty_world
       /\ gen_calls w' = gen_calls empty_world.
Proof.
  assert (H : exists m, In m [PyStr (lit "hi")] /\ is_dict m = false).
  { exists (PyStr (lit "hi")). split; [left; reflexivity | reflexivity]. }
  split; [exact H|].
  exact (gen_cache_invalid_input identity_hash (fun _ _ => Ok (lit "hello"))
           (lit "m") [PyStr (lit "hi")] empty_world H).
Defined.

Lemma gen_cache_round_trip_witness :
  cache_hit empty_world (wrapper_key identity_hash hi_messages) = false
  /\ gen_cache identity_hash (fun _ _ => Ok (lit "hello")) (lit "m") hi_messages
       empty_world
     = (Done (Ok (lit "hello")),
        record_write (wrapper_key identity_hash hi_messages) (lit "hello") 3600
          (record_call empty_world)).
Proof.
  split; [reflexivity|].
  exact (proj1 (gen_cache_round_trip identity_hash
                  (fun _ _ => Ok (lit "hello")) (fun _ _ => Ok (lit "hello"))
                  empty_world eq_refl eq_refl)).
Defined.

(** ** Failures: of the key derivation and of the wrapped function *)

Section Failures.

Variable get_hash : pystr -> pystr.

(** C2: on a conversation that contains an element that is no dict, here the
    single text [x], the streaming wrapper yields no chunk at all and ends in
    the [ValueError] of [gen_cache_key], which its caller receives: the key is
    derived before the [try] block is entered. *)
Theorem stream_cache_derivation_failure_raises (func : stream_func)
    (model : pystr) (flag : bool) (w : world) :
  run_stream_cache get_hash func model [PyStr (lit "x")] flag w
  = ([], Done (Raise (ValueError (lit "All messages must be dictionaries."))), w).
Proof. now apply stream_cache_invalid. Qed.

(** C7: when the wrapped function raises on a miss, whatever the exception,
    the store is not written: the unary result is never stored, and the
    chunks accumulated so far by the streaming wrapper are dropped. *)
Theorem failed_generation_not_cached (ufunc : unary_func) (sfunc : stream_func)
    (model : pystr) (messages : list pyval) (flag : bool) (w : world)
    (e : exn) (produced : list pystr) :
  forallb is_dict messages = true ->
  cache_hit w (wrapper_key get_hash messages) = false ->
  ufunc model messages = Raise e ->
  sfunc model messages flag = {| chunks := produced; failure := Some e |} ->
  let wu := snd (gen_cache get_hash ufunc model messages w) in
  let ws := snd (run_stream_cache get_hash sfunc model messages flag w) in
  (store wu = store w /\ writes wu = writes w)
  /\ (store ws = store w /\ writes ws = writes w).
Proof.
  intros Hd Hmiss Hu Hs wu ws. subst wu ws.
  rewrite (gen_cache_on_miss get_hash _ _ _ _ (wrapper_key get_hash messages));
    [ | now apply wrapper_key_derived | assumption ].
  rewrite (stream_cache_on_miss get_hash _ _ _ _ _ (wrapper_key get_hash messages));
    [ | now apply wrapper_key_derived | assumption ].
  rewrite Hu, Hs. cbn [failure chunks].
  destruct e as [m|n m]; repeat split.
Qed.

End Failures.

(** C3: a failure of the wrapped function does not always reach the caller.
    Both wrappers call it inside the [try] block that is there for the key
    derivation: a [ValueError] it raises is caught by the unary wrapper, which
    returns the sentinel text on the missing user message, and by the
    streaming wrapper, which yields the chunks produced so far, then the
    sentinel chunk, and ends normally. *)
Lemma generation_value_error_masked :
  fst (gen_cache identity_hash (fun _ _ => Raise (ValueError (lit "boom")))
         (lit "m") hi_messages empty_world)
  = Done (Ok sentinel)
  /\ fst (gen_cache identity_hash (fun _ _ => Raise (ValueError (lit "boom")))
            (lit "m") hi_messages empty_world)
     <> Done (Raise (ValueError (lit "boom")))
  /\ fst (run_stream_cache identity_hash
            (fun _ _ _ => {| chunks := [lit "a"];
                             failure := Some (ValueError (lit "boom")) |})
            (lit "m") hi_messages true empty_world)
     = ([lit "a"; sentinel], Done (Ok tt)).
Proof. split; [reflexivity|]. split; [discriminate|reflexivity]. Qed.

Lemma failed_generation_not_cached_witness :
  forallb is_dict hi_messages = true
  /\ cache_hit empty_world (wrapper_key identity_hash hi_messages) = false
  /\ (store (snd (gen_cache identity_hash
                    (fun _ _ => Raise (ValueError (lit "boom")))
                    (lit "m") hi_messages empty_world))
      = store empty_world
      /\ writes (snd (gen_cache identity_hash
                        (fun _ _ => Raise (ValueError (lit "boom")))
                        (lit "m") hi_messages empty_world))
         = writes empty_world)
  /\ (store (snd (run_stream_cache identity_hash
                    (fun _ _ _ => {| chunks := [lit "a"; lit "b"];
                                     failure := Some (ValueError (lit "boom")) |})
                    (lit "m") hi_messages true empty_world))
      = store empty_world
      /\ writes (snd (run_stream_cache identity_hash
                        (fun _ _ _ => {| chunks := [lit "a"; lit "b"];
                                         failure := Some (ValueError (lit "boom")) |})
                        (lit "m") hi_messages true empty_world))
         = writes empty_world).
Proof.
  split; [reflexivity|]. split; [reflexivity|].
  exact (failed_generation_not_cached identity_hash
           (fun _ _ => Raise (ValueError (lit "boom")))
           (fun _ _ _ => {| chunks := [lit "a"; lit "b"];
                            failure := Some (ValueError (lit "boom")) |})
           (lit "m") hi_messages true empty_world
           (ValueError (lit "boom")) [lit "a"; lit "b"]
           eq_refl eq_refl eq_refl eq_refl).
Defined.

(** ** Empty responses *)

Section EmptyResponse.

Variable get_hash : pystr -> pystr.



End EmptyResponse.


(** ** Key-sorted serialization *)

Lemma pystr_leb_cons (x y : Z) (a b : pystr) :
  pystr_leb (x :: a) (y :: b) = (x <? y) || ((x =? y) && pystr_leb a b).
Proof.
  unfold pystr_leb. cbn [pystr_compare].
  destruct (Z.compare_spec x y) as [->|Hlt|Hgt].
  - rewrite Z.ltb_irrefl, Z.eqb_refl. reflexivity.
  - apply Z.ltb_lt in Hlt as ->. reflexivity.
  - assert ((x <? y) = false) as -> by lia.
    assert ((x =? y) = false) as -> by lia. reflexivity.
Qed.

Lemma pystr_leb_total (a b : pystr) :
  pystr_leb a b = true \/ pystr_leb b a = true.
Proof.
  revert b. induction a as [|x a IH]; intros [|y b].
  - now left.
  - now left.
  - now right.
  - rewrite !pystr_leb_cons. destruct (IH b) as [H|H]; rewrite H.
    + destruct (Z.ltb_spec x y); [now left|].
      destruct (Z.eqb_spec x y); [now left|].
      right. assert ((y <? x) = true) as -> by lia. reflexivity.
    + destruct (Z.ltb_spec y x); [now right|].
      destruct (Z.eqb_spec y x); [now right|].
      left. assert ((x <? y) = true) as -> by lia. reflexivity.
Qed.

Lemma pystr_leb_trans (a b c : pystr) :
  pystr_leb a b = true -> pystr_leb b c = true -> pystr_leb a c = true.
Proof.
  revert b c. induction a as [|x a IH]; intros [|y b] [|z c]; try easy.
  rewrite !pystr_leb_cons. intros Hab Hbc.
  apply orb_true_iff in Hab as [Hab|Hab]; apply orb_true_iff in Hbc as [Hbc|Hbc].
  - assert ((x <? z) = true) as -> by lia. reflexivity.
  - apply andb_true_iff in Hbc as [Hbc _].
    assert ((x <? z) = true) as -> by lia. reflexivity.
  - apply andb_true_iff in Hab as [Hab _].
    assert ((x <? z) = true) as -> by lia. reflexivity.
  - apply andb_true_iff in Hab as [Hxy Hab].
    apply andb_true_iff in Hbc as [Hyz Hbc].
    rewrite (IH b c Hab Hbc).
    assert ((x =? z) = true) as -> by lia.
    apply orb_true_r.
Qed.

Lemma pystr_leb_antisym (a b : pystr) :
  pystr_leb a b = true -> pystr_leb b a = true -> a = b.
Proof.
  revert b. induction a as [|x a IH]; intros [|y b]; try easy.
  rewrite !pystr_leb_cons. intros Hab Hba.
  apply orb_true_iff in Hab as [Hab|Hab];
    apply orb_true_iff in Hba as [Hba|Hba]; try lia.
  apply andb_true_iff in Hab as [Hxy Hab].
  apply andb_true_iff in Hba as [_ Hba].
  f_equal; [lia | now apply IH].
Qed.

Section SortItems.

Context {A : Type}.

Lemma insert_item_perm (x : pystr * A) (l : list (pystr * A)) :
  Permutation (insert_item x l) (x :: l).
Proof.
  induction l as [|y l IH]; cbn; [reflexivity|].
  destruct (pystr_leb (fst x) (fst y)); [reflexivity|].
  rewrite IH. apply perm_swap.
Qed.

Lemma sort_items_perm (l : list (pystr * A)) :
  Permutation (sort_items l) l.
Proof.
  induction l as [|x l IH]; cbn; [reflexivity|].
  rewrite insert_item_perm. now constructor.
Qed.

Lemma insert_item_sorted (x : pystr * A) (l : list (pystr * A)) :
  StronglySorted key_le l -> StronglySorted key_le (insert_item x l).
Proof.
  induction 1 as [|y l Hs IH Hy]; cbn.
  - repeat constructor.
  - destruct (pystr_leb (fst x) (fst y)) eqn:Hxy.
    + constructor; [now constructor|].
      constructor; [exact Hxy|].
      eapply List.Forall_impl; [|exact Hy].
      intros z Hz. unfold key_le in *. eapply pystr_leb_trans; eassumption.
    + constructor; [exact IH|].
      rewrite insert_item_perm. constructor; [|exact Hy].
      unfold key_le. destruct (pystr_leb_total (fst x) (fst y)); congruence.
Qed.

Lemma sort_items_sorted (l : list (pystr * A)) :
  StronglySorted key_le (sort_items l).
Proof.
  induction l as [|x l IH]; cbn; [constructor|].
  now apply insert_item_sorted.
Qed.

Lemma same_key_same_item (l : list (pystr * A)) (x y : pystr * A) :
  NoDup (map fst l) -> In x l -> In y l -> fst x = fst y -> x = y.
Proof.
  induction l as [|z l IH]; cbn; [easy|].
  intros Hnd Hx Hy Hk. apply NoDup_cons in Hnd as [Hz Hnd].
  rewrite list_elem_of_In in Hz.
  destruct Hx as [->|Hx], Hy as [->|Hy].
  - reflexivity.
  - exfalso. apply Hz. rewrite Hk. now apply in_map.
  - exfalso. apply Hz. rewrite <- Hk. now apply in_map.
  - now apply IH.
Qed.

(** Two lists of items in key order with the same items, no key twice, are
    the same list. *)
Lemma sorted_items_unique (l1 l2 : list (pystr * A)) :
  StronglySorted key_le l1 -> StronglySorted key_le l2 ->
  Permutation l1 l2 -> NoDup (map fst l1) -> l1 = l2.
Proof.
  intros Hs1. revert l2.
  induction Hs1 as [|a l1 Hs1 IH Ha]; intros l2 Hs2 Hp Hnd.
  - now apply Permutation_nil in Hp.
  - destruct Hs2 as [|b l2 Hs2 Hb].
    + symmetry in Hp. now apply Permutation_nil in Hp.
    + assert (Hab : a = b).
      { assert (Hina : In a (b :: l2))
          by (eapply Permutation_in; [exact Hp | now left]).
        assert (Hinb : In b (a :: l1))
          by (eapply Permutation_in; [symmetry; exact Hp | now left]).
        apply (same_key_same_item (a :: l1)); [assumption | now left | assumption |].
        rewrite List.Forall_forall in Ha, Hb.
        destruct Hina as [->|Hina]; [reflexivity|].
        destruct Hinb as [->|Hinb]; [reflexivity|].
        apply pystr_leb_antisym; [now apply Ha | now apply Hb]. }
      subst b. f_equal. apply IH.
      * assumption.
      * now apply Permutation_cons_inv in Hp.
      * cbn in Hnd. now apply NoDup_cons in Hnd as [_ Hnd].
Qed.

(** The sorted items do not depend on the order the items were written in. *)
Lemma sort_items_order_independent (l1 l2 : list (pystr * A)) :
  Permutation l1 l2 -> NoDup (map fst l1) -> sort_items l1 = sort_items l2.
Proof.
  intros Hp Hnd.
  assert (Hnd' : NoDup (map fst (sort_items l1))).
  { assert (Hperm : Permutation (map fst (sort_items l1)) (map fst l1))
      by apply Permutation_map, sort_items_perm.
    now rewrite Hperm. }
  apply sorted_items_unique.
  - apply sort_items_sorted.
  - apply sort_items_sorted.
  - now rewrite !sort_items_perm.
  - assumption.
Qed.

End SortItems.



(** Induction on values, with the hypothesis for the members of a list and
    for the values of a dict. *)
Lemma pyval_nested_ind (P : pyval -> Prop) :
  P PyNone ->
  (forall b, P (PyBool b)) ->
  (forall n, P (PyInt n)) ->
  (forall s, P (PyStr s)) ->
  (forall l, List.Forall P l -> P (PyList l)) ->
  (forall d, List.Forall (fun kv => P (snd kv)) d -> P (PyDict d)) ->
  forall v, P v.
Proof.
  intros HNone HBool HInt HStr HList HDict.
  fix IH 1. intros [|b|n|s|l|d].
  - exact HNone.
  - apply HBool.
  - apply HInt.
  - apply HStr.
  - apply HList. induction l as [|x l IHl]; constructor; [apply IH | exact IHl].
  - apply HDict. induction d as [|kv d IHd]; constructor; [apply IH | exact IHd].
Qed.

Lemma json_dumps_list (sort_keys : bool) (l : list pyval) :
  json_dumps sort_keys (PyList l)
  = [91] ++ join_items (map (json_dumps sort_keys) l) ++ [93].
Proof. reflexivity. Qed.

Lemma json_dumps_dict_sorted (d : list (pystr * pyval)) :
  json_dumps true (PyDict d)
  = [123]
    ++ join_items
         (map render_item
            (sort_items (map (fun kv => (fst kv, json_dumps true (snd kv))) d)))
    ++ [125].
Proof. reflexivity. Qed.

(** ** The library routines on sample values

    The serializer, the decoder and the codec agree with Python on these
    inputs.  The texts are given by their code points; the comments show
    them with a single quote in the place of each double quote. *)

(** The sample conversation, serialized with sorted keys, after [docgpt_]:
    [docgpt_[{'content': 'hi', 'role': 'user'}]]. *)
Example combined_hi_messages :
  default_model ++ [95] ++ json_dumps true (PyList hi_messages)
  = [100; 111; 99; 103; 112; 116; 95; 91; 123; 34; 99; 111; 110; 116; 101; 110;
     116; 34; 58; 32; 34; 104; 105; 34; 44; 32; 34; 114; 111; 108; 101; 34; 58;
     32; 34; 117; 115; 101; 114; 34; 125; 93].
Proof. reflexivity. Qed.

(** Strings with escapes, constants, a number, empty and nested containers:
    [['a', '', '\u007f\u0000\n\'\\/\u00e9\ud83d\ude00', true, null, -12, {}, [],
    {'b': [1, {'a': 2, 'z': 1}]}]]. *)
Example json_dumps_nested :
  json_dumps true
    (PyList [PyStr (lit "a"); PyStr [];
             PyStr [127; 0; 10; 34; 92; 47; 233; 0x1f600];
             PyBool true; PyNone; PyInt (-12); PyDict []; PyList [];
             PyDict [(lit "b",
                      PyList [PyInt 1;
                              PyDict [(lit "z", PyInt 1); (lit "a", PyInt 2)]])]])
  = [91; 34; 97; 34; 44; 32; 34; 34; 44; 32; 34; 92; 117; 48; 48; 55; 102; 92;
     117; 48; 48; 48; 48; 92; 110; 92; 34; 92; 92; 47; 92; 117; 48; 48; 101; 57;
     92; 117; 100; 56; 51; 100; 92; 117; 100; 101; 48; 48; 34; 44; 32; 116; 114;
     117; 101; 44; 32; 110; 117; 108; 108; 44; 32; 45; 49; 50; 44; 32; 123; 125;
     44; 32; 91; 93; 44; 32; 123; 34; 98; 34; 58; 32; 91; 49; 44; 32; 123; 34;
     97; 34; 58; 32; 50; 44; 32; 34; 122; 34; 58; 32; 49; 125; 93; 125; 93].
Proof. reflexivity. Qed.

(** A chunk list with a lone surrogate and a character outside the basic
    plane: [['a', '', '\ud83d', '\ud83d\ude00\t']], and back. *)
Example chunks_document_sample :
  chunks_document [lit "a"; []; [0xd83d]; [0x1f600; 9]]
  = [91; 34; 97; 34; 44; 32; 34; 34; 44; 32; 34; 92; 117; 100; 56; 51; 100; 34;
     44; 32; 34; 92; 117; 100; 56; 51; 100; 92; 117; 100; 101; 48; 48; 92; 116;
     34; 93]
  /\ json_loads_chunks (chunks_document [lit "a"; []; [0xd83d]; [0x1f600; 9]])
     = Some [lit "a"; []; [0xd83d]; [0x1f600; 9]].
Proof. split; reflexivity. Qed.

(** Whitespace, upper-case hexadecimal digits and an escaped solidus:
    [ [ 'a' ,'\u00E9\/'(newline)] ] is the list of [a] and [e-acute /];
    a trailing comma, trailing text and a bare word are no chunk lists. *)
Example json_loads_chunks_sample :
  json_loads_chunks
    [32; 91; 32; 34; 97; 34; 32; 44; 34; 92; 117; 48; 48; 69; 57; 92; 47; 34;
     10; 93; 32]
  = Some [[97]; [233; 47]]
  /\ json_loads_chunks [91; 34; 97; 34; 44; 93] = None
  /\ json_loads_chunks [91; 93; 120] = None
  /\ json_loads_chunks (lit "hello") = None.
Proof. repeat split. Qed.

(** UTF-8: one to four bytes; surrogates cannot be encoded, overlong forms
    and encoded surrogates cannot be decoded. *)
Example utf8_sample :
  str_encode [104; 233; 0x20ac; 0x1f600]
  = Some [104; 195; 169; 226; 130; 172; 240; 159; 152; 128]
  /\ bytes_decode [104; 195; 169; 226; 130; 172; 240; 159; 152; 128]
     = Some [104; 233; 0x20ac; 0x1f600]
  /\ str_encode [0xd83d] = None
  /\ bytes_decode [0xc0; 0x80] = None
  /\ bytes_decode [0xed; 0xa0; 0x80] = None.
Proof. repeat split. Qed.


(** The key-sorted serialization does not see the order of the fields. *)
Lemma json_dumps_same_fields (v1 : pyval) :
  forall v2, same_fields v1 v2 -> distinct_keys v1 ->
  json_dumps true v1 = json_dumps true v2.
Proof.
  induction v1 as [| | | |l IH|d IH] using pyval_nested_ind;
    intros v2 Hsame Hdist; inversion Hsame; subst; try reflexivity.
  - (* lists *)
    inversion Hdist as [| | | |l' Hall|]; subst.
    rewrite !json_dumps_list.
    match goal with H : Forall2 same_fields _ _ |- _ => rename H into HF end.
    enough (Hmap : map (json_dumps true) l = map (json_dumps true) l2)
      by now rewrite Hmap.
    clear Hsame Hdist.
    induction HF as [|a b l l2 Hab HF IHF]; [reflexivity|].
    apply List.Forall_cons_iff in IH as [IHa IH].
    apply Forall_cons in Hall as [Ha Hall].
    cbn [map]. f_equal; [now apply IHa | now apply IHF].
  - (* dicts *)
    inversion Hdist as [| | | | |d' Hnd Hall]; subst.
    rewrite !json_dumps_dict_sorted.
    enough (Hsort : sort_items (map (fun kv => (fst kv, json_dumps true (snd kv))) d)
                    = sort_items (map (fun kv => (fst kv, json_dumps true (snd kv))) d2))
      by now rewrite Hsort.
    match goal with
    | H : Forall2 _ d ?d2', Hp : Permutation ?d2' _ |- _ =>
        rename H into HF; rename Hp into Hperm; rename d2' into dm
    end.
    set (render := fun kv : pystr * pyval => (fst kv, json_dumps true (snd kv))).
    assert (Hmap : map render d = map render dm).
    { clear Hsame Hdist Hnd Hperm.
      induction HF as [|a b l l2 [Hk Hv] HF IHF]; [reflexivity|].
      apply List.Forall_cons_iff in IH as [IHa IH].
      apply Forall_cons in Hall as [Ha Hall].
      cbn [map]. f_equal; [|now apply IHF].
      unfold render. rewrite Hk. f_equal. now apply IHa. }
    apply sort_items_order_independent.
    + rewrite Hmap. now apply Permutation_map.
    + assert (Hkeys : map fst (map render d) = map fst d).
      { rewrite map_map. now apply map_ext. }
      now rewrite Hkeys.
Qed.

Lemma same_fields_is_dict (v1 v2 : pyval) :
  same_fields v1 v2 -> is_dict v1 = is_dict v2.
Proof. now destruct 1. Qed.

Section FieldOrder.

Variable get_hash : pystr -> pystr.

(** C8: two conversations that are equal message by message, the records of
    the second written with their fields in another order, have the same
    cache key, for any model: the serialization is sorted by key. *)
Theorem gen_cache_key_field_order_independent
    (messages1 messages2 : list pyval) (model : pystr) :
  Forall2 same_fields messages1 messages2 ->
  Forall distinct_keys messages1 ->
  gen_cache_key get_hash messages1 model = gen_cache_key get_hash messages2 model.
Proof.
  intros Hsame Hdist. unfold gen_cache_key.
  assert (Hdicts : forallb is_dict messages1 = forallb is_dict messages2).
  { clear Hdist. induction Hsame as [|a b l1 l2 Hab Hsame IH]; [reflexivity|].
    cbn [forallb]. now rewrite (same_fields_is_dict _ _ Hab), IH. }
  rewrite Hdicts.
  rewrite (json_dumps_same_fields (PyList messages1) (PyList messages2)).
  - reflexivity.
  - now constructor.
  - now constructor.
Qed.

End FieldOrder.

Lemma gen_cache_key_field_order_independent_witness :
  Forall2 same_fields hi_messages hi_messages_swapped
  /\ Forall distinct_keys hi_messages
  /\ gen_cache_key identity_hash hi_messages (lit "m")
     = gen_cache_key identity_hash hi_messages_swapped (lit "m").
Proof.
  assert (Hsame : Forall2 same_fields hi_messages hi_messages_swapped).
  { repeat constructor.
    eapply same_dict with
      (d2' := [(lit "role", PyStr (lit "user")); (lit "content", PyStr (lit "hi"))]).
    - repeat constructor.
    - apply perm_swap. }
  assert (Hdist : Forall distinct_keys hi_messages).
  { repeat constructor.
    - rewrite list_elem_of_In. cbn. intros [H|[]]. discriminate H.
    - rewrite list_elem_of_In. cbn. intros []. }
  split; [exact Hsame|]. split; [exact Hdist|].
  exact (gen_cache_key_field_order_independent identity_hash
           hi_messages hi_messages_swapped (lit "m") Hsame Hdist).
Defined.

(** ** The JSON round trip of a chunk list *)

Ltac zcases :=
  repeat match goal with
    | |- context [?a =? ?b] => destruct (Z.eqb_spec a b)
    | |- context [?a <? ?b] => destruct (Z.ltb_spec a b)
    | |- context [?a <=? ?b] => destruct (Z.leb_spec a b)
    end;
  cbn [andb orb negb].




(** Bit operations on the two halves of a surrogate pair. *)
Lemma lor_shiftl_small (a b n : Z) :
  0 <= n -> 0 <= b < 2 ^ n -> Z.lor (Z.shiftl a n) b = Z.shiftl a n + b.
Proof.
  intros Hn Hb.
  assert (Hland : Z.land (Z.shiftl a n) b = 0).
  { apply Z.bits_inj'. intros i Hi. rewrite Z.land_spec, Z.bits_0.
    destruct (Z.lt_ge_cases i n) as [Hlt|Hge].
    - now rewrite Z.shiftl_spec_low.
    - rewrite <- (Z.mod_small b (2 ^ n)) by lia.
      rewrite Z.mod_pow2_bits_high by lia. apply andb_false_r. }
  rewrite <- Z.lxor_lor by exact Hland.
  symmetry. now apply Z.add_nocarry_lxor.
Qed.

Lemma surrogate_halves (c : Z) :
  0x10000 <= c < 0x110000 ->
  let n := c - 0x10000 in
  let s1 := Z.lor 0xd800 (Z.land (Z.shiftr n 10) 0x3ff) in
  let s2 := Z.lor 0xdc00 (Z.land n 0x3ff) in
  0xd800 <= s1 <= 0xdbff /\ 0xdc00 <= s2 <= 0xdfff
  /\ 0x10000 + Z.lor (Z.shiftl (s1 - 0xd800) 10) (s2 - 0xdc00) = c.
Proof.
  intros Hc n s1 s2.
  assert (Hhi : Z.land (Z.shiftr n 10) 0x3ff = n / 1024).
  { change 0x3ff with (Z.ones 10). rewrite Z.land_ones by lia.
    rewrite Z.shiftr_div_pow2 by lia. change (2 ^ 10) with 1024.
    apply Z.mod_small. subst n. split.
    - apply Z.div_pos; lia.
    - apply Z.div_lt_upper_bound; lia. }
  assert (Hlo : Z.land n 0x3ff = n mod 1024).
  { change 0x3ff with (Z.ones 10). now rewrite Z.land_ones by lia. }
  assert (Hq : 0 <= n / 1024 < 1024).
  { subst n. split; [apply Z.div_pos; lia | apply Z.div_lt_upper_bound; lia]. }
  assert (Hr : 0 <= n mod 1024 < 1024) by (apply Z.mod_pos_bound; lia).
  assert (H1 : s1 = 0xd800 + n / 1024).
  { subst s1. rewrite Hhi. change 0xd800 with (Z.shiftl 54 10).
    now apply lor_shiftl_small. }
  assert (H2 : s2 = 0xdc00 + n mod 1024).
  { subst s2. rewrite Hlo. change 0xdc00 with (Z.shiftl 55 10).
    now apply lor_shiftl_small. }
  rewrite H1, H2. split; [lia|]. split; [lia|].
  replace (0xd800 + n / 1024 - 0xd800) with (n / 1024) by lia.
  replace (0xdc00 + n mod 1024 - 0xdc00) with (n mod 1024) by lia.
  rewrite lor_shiftl_small by (change (2 ^ 10) with 1024; lia).
  rewrite Z.shiftl_mul_pow2 by lia. change (2 ^ 10) with 1024.
  pose proof (Z.div_mod n 1024 ltac:(lia)). subst n. lia.
Qed.




















(** ** The stored document is ASCII, and UTF-8 leaves ASCII text as it is *)







(** ** The UTF-8 round trip *)




Section UnaryRoundTrip.

Variable get_hash : pystr -> pystr.


End UnaryRoundTrip.

(** ** Streaming content fidelity *)

Section StreamReplay.

Variable get_hash : pystr -> pystr.


End StreamReplay.



(** * Further properties of the wrappers *)

(** ** The unary wrapper on every input *)

Section UnaryEffects.

Variable get_hash : pystr -> pystr.






End UnaryEffects.




(** ** The streaming wrapper on every input *)

Section StreamEffects.

Variable get_hash : pystr -> pystr.

Lemma record_sleeps_fields (n : nat) (w : world) :
  store (record_sleeps n w) = store w
  /\ writes (record_sleeps n w) = writes w
  /\ gen_calls (record_sleeps n w) = gen_calls w
  /\ sleeps (record_sleeps n w) = (n + sleeps w)%nat.
Proof.
  revert w. induction n as [|n IH]; intros w; [now repeat split|].
  cbn [record_sleeps]. destruct (IH (record_sleep w)) as (-> & -> & -> & ->).
  repeat split. cbn [sleeps record_sleep]. lia.
Qed.


Lemma stream_hit_leaves_store (func : stream_func) (model : pystr)
    (messages : list pyval) (flag : bool) (w : world)
    (b : Z) (bs : bytes) :
  forallb is_dict messages = true ->
  store w !! wrapper_key get_hash messages = Some (b :: bs) ->
  gen_calls (snd (run_stream_cache get_hash func model messages flag w)) = gen_calls w
  /\ writes (snd (run_stream_cache get_hash func model messages flag w)) = writes w
  /\ store (snd (run_stream_cache get_hash func model messages flag w)) = store w.
Proof.
  intros Hd Hs.
  rewrite (stream_cache_on_hit get_hash _ _ _ _ _ (wrapper_key get_hash messages) b bs);
    [ | now apply wrapper_key_derived | assumption ].
  cbv zeta.
  destruct (bytes_decode (b :: bs)) as [text|]; [|now repeat split].
  destruct (json_loads_chunks text) as [cached|]; [|now repeat split].
  cbn [fst snd].
  destruct (record_sleeps_fields (length cached)
              (record_line
                 (lit "Cache hit for stream key: " ++ wrapper_key get_hash messages)
                 w))
    as (-> & -> & -> & _).
  now repeat split.
Qed.

(** X7: a hit of the streaming wrapper, whatever the payload, never calls the
    wrapped function and never writes the store. *)
Theorem stream_cache_hit_no_call_no_write (func : stream_func) (model : pystr)
    (messages : list pyval) (flag : bool) (w : world)
    (b : Z) (bs : bytes) :
  forallb is_dict messages = true ->
  store w !! wrapper_key get_hash messages = Some (b :: bs) ->
  let run := run_stream_cache get_hash func model messages flag w in
  gen_calls (snd run) = gen_calls w
  /\ writes (snd run) = writes w
  /\ store (snd run) = store w.
Proof.
  intros Hd Hs run. subst run.
  now apply stream_hit_leaves_store with (b := b) (bs := bs).
Qed.




End StreamEffects.


Lemma stream_cache_hit_no_call_no_write_witness :
  forallb is_dict hi_messages = true
  /\ store (record_write (wrapper_key identity_hash hi_messages)
              [91; 34; 97; 34; 93] 1800 empty_world)
       !! wrapper_key identity_hash hi_messages
     = Some [91; 34; 97; 34; 93]
  /\ gen_calls
       (snd (run_stream_cache identity_hash
               (fun _ _ _ => {| chunks := [lit "z"]; failure := None |})
               (lit "m") hi_messages true
               (record_write (wrapper_key identity_hash hi_messages)
                  [91; 34; 97; 34; 93] 1800 empty_world)))
     = gen_calls (record_write (wrapper_key identity_hash hi_messages)
                    [91; 34; 97; 34; 93] 1800 empty_world).
Proof.
  split; [reflexivity|]. split; [apply store_record_write|].
  exact (proj1 (stream_cache_hit_no_call_no_write identity_hash
                  (fun _ _ _ => {| chunks := [lit "z"]; failure := None |})
                  (lit "m") hi_messages true
                  (record_write (wrapper_key identity_hash hi_messages)
                     [91; 34; 97; 34; 93] 1800 empty_world)
                  91 [34; 97; 34; 93] eq_refl (store_record_write _ _ _ _))).
Defined.




(** * How far the cache key tells conversations apart *)

(** ** Cancellation: a serialization determines the value it came from *)














(** ** Keys of conversations *)

Section KeyDiscrimination.

Variable get_hash : pystr -> pystr.

(** The hash function is taken without collisions. *)
Hypothesis get_hash_injective : forall a b, get_hash a = get_hash b -> a = b.





End KeyDiscrimination.

(** ** A character above U+FFFF and its surrogate pair *)

Lemma escape_char_surrogate_pair (c : Z) :
  0x10000 <= c < 0x110000 ->
  escape_char c
  = escape_char (high_surrogate_of c) ++ escape_char (low_surrogate_of c).
Proof.
  intros Hc.
  destruct (surrogate_halves c Hc) as (Hhi & Hlo & _).
  fold (high_surrogate_of c) in Hhi. fold (low_surrogate_of c) in Hlo.
  assert (Hu : forall s, 0xd800 <= s <= 0xdfff -> escape_char s = u_escape s).
  { intros s Hs. unfold escape_char. zcases; try lia. reflexivity. }
  rewrite (Hu (high_surrogate_of c)) by lia.
  rewrite (Hu (low_surrogate_of c)) by lia.
  unfold escape_char. zcases; try lia. reflexivity.
Qed.

Lemma json_dumps_in_list (sort_keys : bool) (before after : list pyval)
    (v v' : pyval) :
  json_dumps sort_keys v = json_dumps sort_keys v' ->
  json_dumps sort_keys (PyList (before ++ v :: after))
  = json_dumps sort_keys (PyList (before ++ v' :: after)).
Proof.
  intros Hv. rewrite !json_dumps_list, !map_app. cbn [map]. now rewrite Hv.
Qed.

Lemma json_dumps_in_dict (fields1 fields2 : list (pystr * pyval))
    (k : pystr) (v v' : pyval) :
  json_dumps true v = json_dumps true v' ->
  json_dumps true (PyDict (fields1 ++ (k, v) :: fields2))
  = json_dumps true (PyDict (fields1 ++ (k, v') :: fields2)).
Proof.
  intros Hv. rewrite !json_dumps_dict_sorted, !map_app. cbn [map fst snd].
  now rewrite Hv.
Qed.

Section SurrogateCollision.

Variable get_hash : pystr -> pystr.

(** X15: the key does not tell a code point above U+FFFF from its surrogate
    pair.  Two conversations that differ only in one text field, which holds
    the one code point in the first and the two surrogate code points in the
    second, have the same cache key, whatever the hash function. *)
Theorem gen_cache_key_joins_surrogates (before after : list pyval)
    (fields1 fields2 : list (pystr * pyval)) (k pre post : pystr)
    (c : Z) (model : pystr) :
  0x10000 <= c < 0x110000 ->
  gen_cache_key get_hash
    (before
     ++ PyDict (fields1 ++ (k, PyStr (pre ++ c :: post)) :: fields2) :: after)
    model
  = gen_cache_key get_hash
      (before
       ++ PyDict (fields1
                  ++ (k, PyStr (pre ++ high_surrogate_of c
                                     :: low_surrogate_of c :: post))
                       :: fields2)
            :: after)
      model.
Proof.
  intros Hc. unfold gen_cache_key.
  rewrite !forallb_app. cbn [forallb is_dict].
  assert (Hstr : json_dumps true (PyStr (pre ++ c :: post))
                 = json_dumps true
                     (PyStr (pre ++ high_surrogate_of c :: low_surrogate_of c :: post))).
  { change (json_dumps true (PyStr (pre ++ c :: post)))
      with (encode_basestring_ascii (pre ++ c :: post)).
    change (json_dumps true
              (PyStr (pre ++ high_surrogate_of c :: low_surrogate_of c :: post)))
      with (encode_basestring_ascii
              (pre ++ high_surrogate_of c :: low_surrogate_of c :: post)).
    unfold encode_basestring_ascii. rewrite !flat_map_app. cbn [flat_map].
    rewrite (escape_char_surrogate_pair c Hc). now rewrite <- !app_assoc. }
  rewrite (json_dumps_in_list true before after _ _
             (json_dumps_in_dict fields1 fields2 k _ _ Hstr)).
  reflexivity.
Qed.

End SurrogateCollision.











Lemma gen_cache_key_joins_surrogates_witness :
  0x10000 <= 0x1f600 < 0x110000
  /\ high_surrogate_of 0x1f600 = 0xd83d
  /\ low_surrogate_of 0x1f600 = 0xde00
  /\ gen_cache_key identity_hash
       ([] ++ PyDict ([(lit "role", PyStr (lit "user"))]
                      ++ (lit "content", PyStr (lit "hi " ++ 0x1f600 :: [])) :: [])
           :: [])
       (lit "m")
     = gen_cache_key identity_hash
         ([] ++ PyDict ([(lit "role", PyStr (lit "user"))]
                        ++ (lit "content",
                            PyStr (lit "hi " ++ high_surrogate_of 0x1f600
                                     :: low_surrogate_of 0x1f600 :: [])) :: [])
             :: [])
         (lit "m").
Proof.
  assert (Hc : 0x10000 <= 0x1f600 < 0x110000) by lia.
  split; [exact Hc|]. split; [reflexivity|]. split; [reflexivity|].
  exact (gen_cache_key_joins_surrogates identity_hash [] []
           [(lit "role", PyStr (lit "user"))] [] (lit "content") (lit "hi ") []
           0x1f600 (lit "m") Hc).
Defined.

(** ** A completed stream is generated once *)

Section StreamOnce.

Variable get_hash : pystr -> pystr.


End StreamOnce.


(** * The failures of the key derivation *)

Lemma first_failure_none (l : list (option exn)) :
  first_failure l = None <-> List.Forall (fun o => o = None) l.
Proof.
  induction l as [|[e|] l IH]; cbn [first_failure].
  - split; [constructor | reflexivity].
  - split; [discriminate | intros H; inversion H; discriminate].
  - rewrite IH. split; [now constructor | intros H; now inversion H].
Qed.

Lemma first_failure_in (l : list (option exn)) (e : exn) :
  first_failure l = Some e -> In (Some e) l.
Proof.
  induction l as [|[e'|] l IH]; cbn [first_failure]; intros H.
  - discriminate.
  - injection H as ->. now left.
  - right. now apply IH.
Qed.

(** The encoder raises nothing but the two errors. *)
Lemma json_dumps_failure_kinds (sort_keys : bool) (v : pyval) :
  forall depth e,
    json_dumps_failure sort_keys depth v = Some e ->
    e = int_limit_error \/ e = recursion_error.
Proof.
  induction v as [|b|n|s|l IH|d IH] using pyval_nested_ind; intros depth e H;
    cbn [json_dumps_failure] in H; try discriminate.
  - destruct (int_too_long n); [|discriminate]. injection H as <-. now left.
  - destruct depth as [|depth]; [injection H as <-; now right|].
    apply first_failure_in in H. apply in_map_iff in H as (x & Hx & Hin).
    rewrite List.Forall_forall in IH. exact (IH x Hin depth e Hx).
  - destruct depth as [|depth]; [injection H as <-; now right|].
    apply first_failure_in in H. apply in_map_iff in H as ([k o] & Ho & Hin).
    cbn [snd] in Ho. subst o.
    assert (Hin' : In (k, Some e)
                     (map (fun kv => (fst kv, json_dumps_failure sort_keys depth (snd kv))) d)).
    { destruct sort_keys; [|exact Hin].
      eapply Permutation_in; [apply sort_items_perm | exact Hin]. }
    apply in_map_iff in Hin' as (kv & Hkv & Hkvin).
    injection Hkv as _ Hkv.
    rewrite List.Forall_forall in IH. exact (IH kv Hkvin depth e Hkv).
Qed.

Lemma max_nesting_le {A} (f : A -> nat) (l : list A) (bound : nat) :
  (fold_right (fun x acc => Nat.max (f x) acc) O l <= bound)%nat
  <-> List.Forall (fun x => (f x <= bound)%nat) l.
Proof.
  induction l as [|x l IH]; cbn [fold_right].
  - split; [constructor | lia].
  - split.
    + intros H. constructor; [lia|]. apply IH. lia.
    + intros H. inversion H as [|? ? Hx Hl]; subst. apply IH in Hl. lia.
Qed.

(** [json.dumps] serializes a value exactly when its containers are nested
    within the depth allowed and its ints are within the limit on digits. *)
Lemma json_dumps_failure_none_iff (sort_keys : bool) (v : pyval) :
  forall depth,
    json_dumps_failure sort_keys depth v = None
    <-> (nesting v <= depth)%nat /\ ints_short v = true.
Proof.
  induction v as [|b|n|s|l IH|d IH] using pyval_nested_ind; intros depth;
    cbn [json_dumps_failure nesting ints_short].
  - split; [split; [lia | reflexivity] | reflexivity].
  - split; [split; [lia | reflexivity] | reflexivity].
  - destruct (int_too_long n); cbn [negb].
    + split; [discriminate | intros [_ H]; discriminate].
    + split; [split; [lia | reflexivity] | reflexivity].
  - split; [split; [lia | reflexivity] | reflexivity].
  - destruct depth as [|depth]; [split; [discriminate | intros [H _]; lia]|].
    rewrite first_failure_none, List.Forall_map.
    rewrite <- Nat.succ_le_mono, max_nesting_le, forallb_forall.
    rewrite !List.Forall_forall. rewrite List.Forall_forall in IH.
    split.
    + intros H. split; intros x Hx; now apply (IH x Hx depth), H.
    + intros [Hn Hi] x Hx. apply (IH x Hx depth). split; [now apply Hn | now apply Hi].
  - destruct depth as [|depth]; [split; [discriminate | intros [H _]; lia]|].
    rewrite first_failure_none, List.Forall_map.
    rewrite <- Nat.succ_le_mono, max_nesting_le, forallb_forall.
    rewrite !List.Forall_forall. rewrite List.Forall_forall in IH.
    set (checked := map (fun kv => (fst kv, json_dumps_failure sort_keys depth (snd kv))) d).
    assert (Hall : (forall x, In x (if sort_keys then sort_items checked else checked) ->
                              snd x = None)
                   <-> (forall kv, In kv d ->
                                   json_dumps_failure sort_keys depth (snd kv) = None)).
    { assert (Hperm : forall x, In x (if sort_keys then sort_items checked else checked)
                                <-> In x checked).
      { intros x. destruct sort_keys; [|reflexivity].
        split; apply Permutation_in;
          [apply sort_items_perm | symmetry; apply sort_items_perm]. }
      split.
      - intros H kv Hkv.
        apply (H (fst kv, json_dumps_failure sort_keys depth (snd kv))).
        apply Hperm. unfold checked. apply in_map_iff. now exists kv.
      - intros H x Hx. apply Hperm in Hx. unfold checked in Hx.
        apply in_map_iff in Hx as (kv & <- & Hkv). cbn [snd]. now apply H. }
    rewrite Hall. split.
    + intros H. split; intros kv Hkv; now apply (IH kv Hkv depth), H.
    + intros [Hn Hi] kv Hkv. apply (IH kv Hkv depth).
      split; [now apply Hn | now apply Hi].
Qed.

Section KeyFailures.

Variable get_hash : pystr -> pystr.

(** On the conversations [json.dumps] serializes, the two derivations
    agree. *)
Lemma gen_cache_key_full_serializable (depth : nat) (messages : list pyval)
    (model : pystr) :
  (nesting (PyList messages) <= depth)%nat ->
  ints_short (PyList messages) = true ->
  gen_cache_key_full get_hash depth messages model
  = gen_cache_key get_hash messages model.
Proof.
  intros Hn Hi. unfold gen_cache_key_full, gen_cache_key.
  destruct (negb (forallb is_dict messages)); [reflexivity|].
  now rewrite (proj2 (json_dumps_failure_none_iff true (PyList messages) depth)
                 (conj Hn Hi)).
Qed.

(** C10, amended: [gen_cache_key] raises its own error, the [ValueError] on
    dictionaries, exactly when some element of [messages] is no dict; the
    roles of the messages play no part, and the condition of a missing user
    message, which the sentinel text names, is never detected.  A conversation
    of dicts has a key exactly when [json.dumps] serializes it: when its
    containers are nested within the depth the interpreter allows and its
    ints have at most 4300 digits; otherwise the error of [json.dumps] leaves
    the function.  The empty conversation and a conversation without a user
    message have a key, and the unary wrapper caches the answer to the empty
    conversation like any other. *)
Theorem gen_cache_key_failures (depth : nat) (messages : list pyval) (model : pystr) :
  let run := gen_cache_key_full get_hash depth messages model in
  (run = Raise (ValueError (lit "All messages must be dictionaries."))
   <-> (exists m, In m messages /\ is_dict m = false))
  /\ ((exists key, run = Ok key)
      <-> forallb is_dict messages = true
          /\ (nesting (PyList messages) <= depth)%nat
          /\ ints_short (PyList messages) = true)
  /\ (run = Ok (get_hash (model ++ [95] ++ json_dumps true (PyList messages)))
      \/ run = Raise (ValueError (lit "All messages must be dictionaries."))
      \/ run = Raise int_limit_error
      \/ run = Raise recursion_error)
  /\ gen_cache_key_full get_hash (S depth) [] model
     = Ok (get_hash (model ++ lit "_[]"))
  /\ gen_cache_key_full get_hash (S (S depth))
       [PyDict [(lit "role", PyStr (lit "assistant"));
                (lit "content", PyStr (lit "hi"))]] model
     = Ok (get_hash
             (model ++ [95]
              ++ json_dumps true
                   (PyList [PyDict [(lit "role", PyStr (lit "assistant"));
                                    (lit "content", PyStr (lit "hi"))]])))
  /\ gen_cache get_hash (fun _ _ => Ok (lit "hello")) model [] empty_world
     = (Done (Ok (lit "hello")),
        record_write (wrapper_key get_hash []) (lit "hello") 3600
          (record_call empty_world)).
Proof.
  intros run. subst run.
  assert (Hdict : int_limit_error
                  <> ValueError (lit "All messages must be dictionaries."))
    by (intros H; vm_compute in H; discriminate H).
  split; [|split; [|split; [|split; [|split]]]].
  - unfold gen_cache_key_full. split.
    + destruct (forallb is_dict messages) eqn:Hall; cbn [negb].
      * intros H.
        destruct (json_dumps_failure true depth (PyList messages)) as [e|] eqn:He;
          [|discriminate].
        injection H as ->.
        destruct (json_dumps_failure_kinds _ _ _ _ He) as [H|H];
          [now elim Hdict | discriminate H].
      * intros _. clear -Hall.
        induction messages as [|m ms IH]; [discriminate|].
        cbn in Hall. destruct (is_dict m) eqn:Hm.
        -- destruct (IH Hall) as (m' & Hin & Hm').
           exists m'. split; [now right | assumption].
        -- exists m. split; [now left | assumption].
    + intros Hbad. apply forallb_is_dict_false in Hbad. now rewrite Hbad.
  - unfold gen_cache_key_full.
    rewrite <- (json_dumps_failure_none_iff true (PyList messages) depth).
    destruct (forallb is_dict messages); cbn [negb].
    + destruct (json_dumps_failure true depth (PyList messages)) as [e|].
      * split; [intros [key H]; discriminate H | intros [_ H]; discriminate H].
      * split; [now split | intros _; now eexists].
    + split; [intros [key H]; discriminate H | intros [H _]; discriminate H].
  - unfold gen_cache_key_full.
    destruct (forallb is_dict messages); cbn [negb]; [|right; now left].
    destruct (json_dumps_failure true depth (PyList messages)) as [e|] eqn:He;
      [|now left].
    destruct (json_dumps_failure_kinds _ _ _ _ He) as [->| ->];
      right; right; [now left | now right].
  - reflexivity.
  - reflexivity.
  - rewrite (gen_cache_on_miss get_hash _ _ _ _ (wrapper_key get_hash []));
      [reflexivity | reflexivity | reflexivity].
Qed.

End KeyFailures.

(** C10, as stated, fails: a conversation of dicts has no key when
    [json.dumps] raises on it.  For an int of 4301 digits the [ValueError] of
    the conversion leaves [gen_cache_key]; for lists nested beyond the depth
    allowed, here a thousand levels, it is [RecursionError]. *)
Lemma gen_cache_key_unserializable_dicts :
  forallb is_dict [PyDict [(lit "n", PyInt (10 ^ 4300))]] = true
  /\ gen_cache_key_full identity_hash 1000
       [PyDict [(lit "n", PyInt (10 ^ 4300))]] (lit "docgpt")
     = Raise int_limit_error
  /\ forallb is_dict [PyDict [(lit "k", nested_lists 1000)]] = true
  /\ gen_cache_key_full identity_hash 1000
       [PyDict [(lit "k", nested_lists 1000)]] (lit "docgpt")
     = Raise recursion_error.
Proof.
  split; [reflexivity|]. split; [vm_compute; reflexivity|].
  split; [reflexivity|]. vm_compute. reflexivity.
Qed.
